(** * Valuation: the five intrinsic-value calculators of [valuation.py]

    The script is a Streamlit page.  A sidebar selector picks one of five
    models; the page then reads that model's number inputs and, when the
    model's button is pressed, runs a short computation and shows the
    result with [st.success]/[st.info]/[st.warning], or shows a message
    with [st.error].  Each block under an [if st.button(...)] is embedded
    below as one function from the inputs it reads to an [outcome].

    Numbers.  Every input comes from [st.number_input] with a float default
    and is a Python float.  The blocks are embedded twice.

    First in exact arithmetic: floats as exact rationals [Q], a decimal
    literal such as [1.1] as the rational 11/10, [+ - *] exact, [/] raising
    [ZeroDivisionError] on a zero divisor and [**] the exact power with an
    integer exponent.  Rounding, overflow, underflow, infinities and NaN
    do not exist there; equality of numbers is [Qeq] ([==]).  What is
    proved on this embedding is a statement about the formulas the blocks
    compute, or about a run in which no rounding decides the outcome.

    Then, in module [B64], on binary64 floats, where a quotient or a
    difference can round to zero and a sum can overflow. *)

From Stdlib Require Import QArith Qpower Qround Qabs ZArith List String Bool Lia Lqa.
From Stdlib Require Import PrimFloat.

Set Warnings "-inexact-float".
Import ListNotations.

Local Open Scope Q_scope.

(** ** Outcomes of a button press *)

(** Exceptions the arithmetic of the script can raise; nothing in the
    script catches them. *)
Inductive PyExn : Set :=
| ZeroDivisionError
| IndexError
| OverflowError.

(** The three [st.error] calls of the script (lines 68, 71 and 114). *)
Inductive StError : Set :=
| SharesNotPositive
| DiscountNotAboveTerminal
| ReturnNotAboveGrowth.

Definition message (e : StError) : string :=
  match e with
  | SharesNotPositive => "Outstanding Shares must be greater than 0."
  | DiscountNotAboveTerminal =>
      "Discount Rate must be greater than Terminal Growth Rate."
  | ReturnNotAboveGrowth => "Return must be greater than growth rate"
  end.

(** The error kinds by which the specification names those messages. *)
Inductive ErrorKind : Set :=
| InvalidShares
| InvalidRateRelation.

Definition kind (e : StError) : ErrorKind :=
  match e with
  | SharesNotPositive => InvalidShares
  | DiscountNotAboveTerminal => InvalidRateRelation
  | ReturnNotAboveGrowth => InvalidRateRelation
  end.

(** [Shown a]: the block ran to its end and displayed the numbers [a].
    [Rejected e]: the block called [st.error] and displayed no number
    ([st.stop()] in the DCF block, the untaken [else] in the DDM block).
    [Raised x]: an uncaught Python exception left the block. *)
Inductive outcome (A : Type) : Type :=
| Shown (a : A)
| Rejected (e : StError)
| Raised (x : PyExn).

Arguments Shown {A} a.
Arguments Rejected {A} e.
Arguments Raised {A} x.

Definition bind {A B : Type} (c : outcome A) (k : A -> outcome B) : outcome B :=
  match c with
  | Shown a => k a
  | Rejected e => Rejected e
  | Raised x => Raised x
  end.

Declare Scope outcome_scope.
Delimit Scope outcome_scope with outcome.
Notation "x <- c ;; k" := (bind c (fun x => k))
  (at level 61, c at next level, right associativity) : outcome_scope.
Local Open Scope outcome_scope.

Fixpoint mapM {A B : Type} (f : A -> outcome B) (l : list A) : outcome (list B) :=
  match l with
  | [] => Shown []
  | a :: l' => b <- f a ;; bs <- mapM f l' ;; Shown (b :: bs)
  end.

Definition produces_number {A : Type} (c : outcome A) : bool :=
  match c with
  | Shown _ => true
  | _ => false
  end.

Definition fails_with {A : Type} (c : outcome A) (k : ErrorKind) : Prop :=
  exists e, c = Rejected e /\ kind e = k.

(** ** Python arithmetic *)

(** [a / b] in exact arithmetic: the divisor is zero only when it is the
    rational zero ([B64.truediv] is the binary64 division). *)
Definition truediv (a b : Q) : outcome Q :=
  if Qeq_bool b 0 then Raised ZeroDivisionError else Shown (a / b).

(** [x ** n] in exact arithmetic for an int [n]; a zero base with a
    negative exponent raises, and nothing overflows ([B64.DCF.pow] is the
    binary64 power, with its [OverflowError]). *)
Definition pow (x : Q) (n : Z) : outcome Q :=
  if (n <? 0)%Z && Qeq_bool x 0 then Raised ZeroDivisionError
  else Shown (x ^ n).

(** [sum(l)]: starts from 0 and adds from the left. *)
Definition sum (l : list Q) : Q := fold_left Qplus l 0.

(** [len(l)] as a number. *)
Definition len {A : Type} (l : list A) : Q := inject_Z (Z.of_nat (List.length l)).

(** [range(n)]. *)
Definition range (n : nat) : list Z := map Z.of_nat (seq 0 n).

(** [l[i]], with Python's negative indices. *)
Definition getitem (l : list Q) (i : Z) : outcome Q :=
  let n := Z.of_nat (List.length l) in
  let j := if (i <? 0)%Z then (i + n)%Z else i in
  if (j <? 0)%Z then Raised IndexError
  else match nth_error l (Z.to_nat j) with
       | Some v => Shown v
       | None => Raised IndexError
       end.

(** [f"{x:.2f}"]: the number of hundredths nearest to [x], ties to even. *)
Definition format_2f (x : Q) : Z :=
  let y := x * 100 in
  let f := Qfloor y in
  let d := y - inject_Z f in
  match Qcompare d (1 # 2) with
  | Lt => f
  | Gt => (f + 1)%Z
  | Eq => if Z.even f then f else (f + 1)%Z
  end.

(** ** Dividend Discount Model (lines 108-117) *)

Module DDM.

Record Inputs : Set := { D1 : Q; g : Q; r : Q }.

Definition intrinsic_value (x : Inputs) : outcome Q :=
  if Qle_bool (r x) (g x) then Rejected ReturnNotAboveGrowth
  else
    d <- truediv (r x - g x) 100 ;;
    truediv (D1 x) d.

End DDM.

(** ** Residual Income Model (lines 124-139) *)

Module RIM.

Record Inputs : Set :=
  { book_value : Q; net_income : Q; rf : Q; beta : Q; market_return : Q }.

Record Result : Set := { cost_of_equity : Q; intrinsic_value : Q }.

(** Line 133, the CAPM expression. *)
Definition capm (x : Inputs) : Q :=
  rf x + beta x * (market_return x - rf x).

Definition run (x : Inputs) : outcome Result :=
  let cost_of_equity := capm x in
  c <- truediv cost_of_equity 100 ;;
  let equity_charge := book_value x * c in
  let RI := net_income x - equity_charge in
  c' <- truediv cost_of_equity 100 ;;
  q <- truediv RI c' ;;
  let intrinsic_value := book_value x + q in
  Shown {| cost_of_equity := cost_of_equity; intrinsic_value := intrinsic_value |}.

End RIM.

(** ** Relative Valuation (lines 146-151) *)

Module Relative.

Record Inputs : Set := { industry_pe : Q; eps : Q }.

Definition relative_value (x : Inputs) : outcome Q :=
  Shown (industry_pe x * eps x).

End Relative.

(** ** Asset-Based Valuation (lines 158-164) *)

Module Asset.

Record Inputs : Set :=
  { total_assets : Q; total_liabilities : Q; shares_outstanding : Q }.

Definition nav (x : Inputs) : outcome Q :=
  truediv (total_assets x - total_liabilities x) (shares_outstanding x).

End Asset.

(** ** Discounted Cash Flow (lines 47-101) *)

Module DCF.

Record Inputs : Set :=
  { opc : Q; opc1 : Q; opc2 : Q;
    ope : Q; ope1 : Q; ope2 : Q;
    gr : Q; gr1 : Q; tr : Q; dr : Q;
    dv : Q; cb : Q; os : Q }.

(** The local variables of the block once it has run to its end; the four
    prices are the displayed ones. *)
Record Locals : Set :=
  { cashflow : Q;
    FV : list Q;
    PV : list Q;
    terminalvalue : Q;
    pvtv : Q;
    sumofpresentvalues : Q;
    netdebt : Q;
    totalpresentvalue : Q;
    shareprice : Q;
    uppershareprice : Q;
    lowershareprice : Q;
    marginofsafetyprice : Q }.

(** Line 82: the comprehension over [range(10)]. *)
Definition project (cashflow grp grp1 : Q) : outcome (list Q) :=
  mapM (fun i : Z =>
          if (i <? 5)%Z then
            p <- pow (1 + grp) i ;;
            Shown (cashflow * p)
          else
            p5 <- pow (1 + grp) 5 ;;
            p <- pow (1 + grp1) (i - 5) ;;
            Shown (cashflow * p5 * p))
       (range 10).

(** Line 83. *)
Definition discount (FV : list Q) (drp : Q) : outcome (list Q) :=
  mapM (fun i : Z =>
          v <- getitem FV i ;;
          d <- pow (1 + drp) (i + 1) ;;
          truediv v d)
       (range 10).

(** Lines 66-95: the body of the button's [if]. *)
Definition run (x : Inputs) : outcome Locals :=
  if Qle_bool (os x) 0 then Rejected SharesNotPositive
  else if Qle_bool (dr x) (tr x) then Rejected DiscountNotAboveTerminal
  else
    let free_cash_flows := [opc x - ope x; opc1 x - ope1 x; opc2 x - ope2 x] in
    cashflow <- truediv (sum free_cash_flows) (len free_cash_flows) ;;
    grp <- truediv (gr x) 100 ;;
    grp1 <- truediv (gr1 x) 100 ;;
    trp <- truediv (tr x) 100 ;;
    drp <- truediv (dr x) 100 ;;
    FV <- project cashflow grp grp1 ;;
    PV <- discount FV drp ;;
    last <- getitem FV (-1) ;;
    terminalvalue <- truediv (last * (1 + trp)) (drp - trp) ;;
    d10 <- pow (1 + drp) 10 ;;
    pvtv <- truediv terminalvalue d10 ;;
    let sumofpresentvalues := sum PV + pvtv in
    let netdebt := dv x - cb x in
    let totalpresentvalue := sumofpresentvalues - netdebt in
    shareprice <- truediv totalpresentvalue (os x) ;;
    let uppershareprice := shareprice * 1.1 in
    let lowershareprice := shareprice * 0.9 in
    let marginofsafetyprice := lowershareprice * 0.7 in
    Shown {| cashflow := cashflow; FV := FV; PV := PV;
             terminalvalue := terminalvalue; pvtv := pvtv;
             sumofpresentvalues := sumofpresentvalues; netdebt := netdebt;
             totalpresentvalue := totalpresentvalue;
             shareprice := shareprice;
             uppershareprice := uppershareprice;
             lowershareprice := lowershareprice;
             marginofsafetyprice := marginofsafetyprice |}.

End DCF.

(** ** The page: one block per selected model (lines 43, 106, 122, 144, 156) *)

Inductive Request : Set :=
| SelectDCF (x : DCF.Inputs)
| SelectDDM (x : DDM.Inputs)
| SelectRIM (x : RIM.Inputs)
| SelectRelative (x : Relative.Inputs)
| SelectAsset (x : Asset.Inputs).

(** The numbers a pressed button displays, in display order. *)
Definition press (q : Request) : outcome (list Q) :=
  match q with
  | SelectDCF x =>
      t <- DCF.run x ;;
      Shown [DCF.shareprice t; DCF.uppershareprice t;
             DCF.lowershareprice t; DCF.marginofsafetyprice t]
  | SelectDDM x => v <- DDM.intrinsic_value x ;; Shown [v]
  | SelectRIM x =>
      t <- RIM.run x ;;
      Shown [RIM.cost_of_equity t; RIM.intrinsic_value t]
  | SelectRelative x => v <- Relative.relative_value x ;; Shown [v]
  | SelectAsset x => v <- Asset.nav x ;; Shown [v]
  end.

(** * The same blocks on binary64 floats

    [st.number_input] hands the script Python floats, that is IEEE 754
    binary64 numbers.  In this module every input and every intermediate
    value is a [float] of Rocq's primitive binary64 arithmetic: [+ - * /]
    round to nearest even, overflow to an infinity and underflow to zero
    as in Python, and a decimal literal is the binary64 number nearest to
    it.  Python's [/] raises [ZeroDivisionError] when the divisor compares
    equal to zero, which it also does after a nonzero quotient or
    difference has rounded to zero.

    Two library functions are not fixed by IEEE 754.  [**] hands its
    general case to the C library's [pow]; that function is the parameter
    [libm_pow] of the DCF block and nothing is assumed about it.  [sum] is
    the left-to-right addition from the int 0; CPython from 3.12 on adds a
    compensation term to it, which is zero when every partial sum is exact
    and is dropped when it is not finite, as in the examples below. *)

Module B64.

Local Open Scope float_scope.

(** [a / b] on floats. *)
Definition truediv (a b : float) : outcome float :=
  if b =? 0 then Raised ZeroDivisionError else Shown (a / b).

(** The float of a small non-negative int. *)
Definition of_nat (n : nat) : float := Nat.iter n (fun x => x + 1) 0.

(** [sum(l)] and [len(l)]. *)
Definition sum (l : list float) : float := fold_left PrimFloat.add l 0.

Definition len {A : Type} (l : list A) : float := of_nat (List.length l).

(** [l[i]], with Python's negative indices. *)
Definition getitem (l : list float) (i : Z) : outcome float :=
  let n := Z.of_nat (List.length l) in
  let j := if (i <? 0)%Z then (i + n)%Z else i in
  if (j <? 0)%Z then Raised IndexError
  else match nth_error l (Z.to_nat j) with
       | Some v => Shown v
       | None => Raised IndexError
       end.

Module DDM.

Record Inputs : Set := { D1 : float; g : float; r : float }.

Definition intrinsic_value (x : Inputs) : outcome float :=
  if r x <=? g x then Rejected ReturnNotAboveGrowth
  else
    d <- truediv (r x - g x) 100 ;;
    truediv (D1 x) d.

End DDM.

Module RIM.

Record Inputs : Set :=
  { book_value : float; net_income : float;
    rf : float; beta : float; market_return : float }.

Record Result : Set := { cost_of_equity : float; intrinsic_value : float }.

Definition capm (x : Inputs) : float :=
  rf x + beta x * (market_return x - rf x).

Definition run (x : Inputs) : outcome Result :=
  let cost_of_equity := capm x in
  c <- truediv cost_of_equity 100 ;;
  let equity_charge := book_value x * c in
  let RI := net_income x - equity_charge in
  c' <- truediv cost_of_equity 100 ;;
  q <- truediv RI c' ;;
  let intrinsic_value := book_value x + q in
  Shown {| cost_of_equity := cost_of_equity; intrinsic_value := intrinsic_value |}.

End RIM.

Module Relative.

Record Inputs : Set := { industry_pe : float; eps : float }.

Definition relative_value (x : Inputs) : outcome float :=
  Shown (industry_pe x * eps x).

End Relative.

Module Asset.

Record Inputs : Set :=
  { total_assets : float; total_liabilities : float;
    shares_outstanding : float }.

Definition nav (x : Inputs) : outcome float :=
  truediv (total_assets x - total_liabilities x) (shares_outstanding x).

End Asset.

Module DCF.

Record Inputs : Set :=
  { opc : float; opc1 : float; opc2 : float;
    ope : float; ope1 : float; ope2 : float;
    gr : float; gr1 : float; tr : float; dr : float;
    dv : float; cb : float; os : float }.

Record Locals : Set :=
  { cashflow : float;
    FV : list float;
    PV : list float;
    terminalvalue : float;
    pvtv : float;
    sumofpresentvalues : float;
    netdebt : float;
    totalpresentvalue : float;
    shareprice : float;
    uppershareprice : float;
    lowershareprice : float;
    marginofsafetyprice : float }.

Section Libm.

(** [libm_pow v n] is C's [pow(v, (double) n)]. *)
Variable libm_pow : float -> Z -> float.

(** [x ** n] for a float [x] and an int [n], after [float_pow] of CPython:
    the special cases are decided before the C library is asked, a negative
    base is handled through its absolute value, and an infinite result of
    the library is reported as [OverflowError]. *)
Definition pow (x : float) (n : Z) : outcome float :=
  if (n =? 0)%Z then Shown 1
  else if is_nan x then Shown x
  else if is_infinity x then
    if (0 <? n)%Z then Shown (if Z.odd n then x else abs x)
    else Shown (if Z.odd n then (if x <? 0 then -0 else 0) else 0)
  else if x =? 0 then
    if (n <? 0)%Z then Raised ZeroDivisionError
    else Shown (if Z.odd n then x else 0)
  else
    let negate_result := (x <? 0) && Z.odd n in
    let v := abs x in
    if v =? 1 then Shown (if negate_result then -1 else 1)
    else
      let r := libm_pow v n in
      if is_infinity r then Raised OverflowError
      else Shown (if negate_result then - r else r).

(** Line 82. *)
Definition project (cashflow grp grp1 : float) : outcome (list float) :=
  mapM (fun i : Z =>
          if (i <? 5)%Z then
            p <- pow (1 + grp) i ;;
            Shown (cashflow * p)
          else
            p5 <- pow (1 + grp) 5 ;;
            p <- pow (1 + grp1) (i - 5) ;;
            Shown (cashflow * p5 * p))
       (range 10).

(** Line 83. *)
Definition discount (FV : list float) (drp : float) : outcome (list float) :=
  mapM (fun i : Z =>
          v <- getitem FV i ;;
          d <- pow (1 + drp) (i + 1) ;;
          truediv v d)
       (range 10).

(** Lines 66-95. *)
Definition run (x : Inputs) : outcome Locals :=
  if os x <=? 0 then Rejected SharesNotPositive
  else if dr x <=? tr x then Rejected DiscountNotAboveTerminal
  else
    let free_cash_flows := [opc x - ope x; opc1 x - ope1 x; opc2 x - ope2 x] in
    cashflow <- truediv (sum free_cash_flows) (len free_cash_flows) ;;
    grp <- truediv (gr x) 100 ;;
    grp1 <- truediv (gr1 x) 100 ;;
    trp <- truediv (tr x) 100 ;;
    drp <- truediv (dr x) 100 ;;
    FV <- project cashflow grp grp1 ;;
    PV <- discount FV drp ;;
    last <- getitem FV (-1) ;;
    terminalvalue <- truediv (last * (1 + trp)) (drp - trp) ;;
    d10 <- pow (1 + drp) 10 ;;
    pvtv <- truediv terminalvalue d10 ;;
    let sumofpresentvalues := sum PV + pvtv in
    let netdebt := dv x - cb x in
    let totalpresentvalue := sumofpresentvalues - netdebt in
    shareprice <- truediv totalpresentvalue (os x) ;;
    let uppershareprice := shareprice * 1.1 in
    let lowershareprice := shareprice * 0.9 in
    let marginofsafetyprice := lowershareprice * 0.7 in
    Shown {| cashflow := cashflow; FV := FV; PV := PV;
             terminalvalue := terminalvalue; pvtv := pvtv;
             sumofpresentvalues := sumofpresentvalues; netdebt := netdebt;
             totalpresentvalue := totalpresentvalue;
             shareprice := shareprice;
             uppershareprice := uppershareprice;
             lowershareprice := lowershareprice;
             marginofsafetyprice := marginofsafetyprice |}.

End Libm.

End DCF.

End B64.

(** ** The sidebar selector (lines 30-36) and the chain of tests on it *)

Definition options : list string :=
  [ "Discounted Cash Flow (DCF)";
    "Dividend Discount Model (DDM)";
    "Residual Income Model (RIM)";
    "Relative Valuation (P/E Multiple)";
    "Asset-Based Valuation" ]%string.

Inductive Block : Set :=
| BlockDCF
| BlockDDM
| BlockRIM
| BlockRelative
| BlockAsset.

(** The [if]/[elif] chain on [model] (lines 43, 106, 122, 144, 156); there
    is no final [else]. *)
Definition branch (model : string) : option Block :=
  if (model =? "Discounted Cash Flow (DCF)")%string then Some BlockDCF
  else if (model =? "Dividend Discount Model (DDM)")%string then Some BlockDDM
  else if (model =? "Residual Income Model (RIM)")%string then Some BlockRIM
  else if (model =? "Relative Valuation (P/E Multiple)")%string
       then Some BlockRelative
  else if (model =? "Asset-Based Valuation")%string then Some BlockAsset
  else None.

(** * Inputs used as examples *)

(** The end-to-end DCF scenario of the specification. *)
Definition dcf_scenario : DCF.Inputs :=
  {| DCF.opc := 100; DCF.opc1 := 100; DCF.opc2 := 100;
     DCF.ope := 20; DCF.ope1 := 20; DCF.ope2 := 20;
     DCF.gr := 10; DCF.gr1 := 5; DCF.tr := 3; DCF.dr := 10;
     DCF.dv := 50; DCF.cb := 20; DCF.os := 10 |}.

(** The same scenario with a discount rate of -100 and a terminal growth
    rate of -200: the shares are positive and the discount rate is above the
    terminal growth rate. *)
Definition dcf_total_discount : DCF.Inputs :=
  {| DCF.opc := 100; DCF.opc1 := 100; DCF.opc2 := 100;
     DCF.ope := 20; DCF.ope1 := 20; DCF.ope2 := 20;
     DCF.gr := 10; DCF.gr1 := 5; DCF.tr := -200; DCF.dr := -100;
     DCF.dv := 50; DCF.cb := 20; DCF.os := 10 |}.

(** No shares and a discount rate equal to the terminal growth rate. *)
Definition dcf_both_invalid : DCF.Inputs :=
  {| DCF.opc := 100; DCF.opc1 := 100; DCF.opc2 := 100;
     DCF.ope := 20; DCF.ope1 := 20; DCF.ope2 := 20;
     DCF.gr := 10; DCF.gr1 := 5; DCF.tr := 5; DCF.dr := 5;
     DCF.dv := 50; DCF.cb := 20; DCF.os := 0 |}.

(** Positive shares and a discount rate equal to the terminal growth rate. *)
Definition dcf_flat_rates : DCF.Inputs :=
  {| DCF.opc := 100; DCF.opc1 := 100; DCF.opc2 := 100;
     DCF.ope := 20; DCF.ope1 := 20; DCF.ope2 := 20;
     DCF.gr := 10; DCF.gr1 := 5; DCF.tr := 5; DCF.dr := 5;
     DCF.dv := 50; DCF.cb := 20; DCF.os := 10 |}.

(** A dividend of 5 with growth below, and with growth equal to, the
    required return. *)
Definition ddm_paying : DDM.Inputs := {| DDM.D1 := 5; DDM.g := 4; DDM.r := 9 |}.
Definition ddm_flat : DDM.Inputs := {| DDM.D1 := 5; DDM.g := 9; DDM.r := 9 |}.

(** The scenario of the specification; [rf = 6.5]. *)
Definition rim_scenario : RIM.Inputs :=
  {| RIM.book_value := 50; RIM.net_income := 8;
     RIM.rf := 6.5; RIM.beta := 1; RIM.market_return := 12 |}.

(** A risk-free rate equal to the market return, both zero: the CAPM cost
    of equity is zero. *)
Definition rim_zero_cost : RIM.Inputs :=
  {| RIM.book_value := 50; RIM.net_income := 8;
     RIM.rf := 0; RIM.beta := 1; RIM.market_return := 0 |}.

(** The same inputs with another book value per share. *)
Definition with_book_value (b : Q) (x : RIM.Inputs) : RIM.Inputs :=
  {| RIM.book_value := b; RIM.net_income := RIM.net_income x;
     RIM.rf := RIM.rf x; RIM.beta := RIM.beta x;
     RIM.market_return := RIM.market_return x |}.

(** The asset example of the specification, and the same with a negative
    and with a zero number of shares. *)
Definition asset_example : Asset.Inputs :=
  {| Asset.total_assets := 100; Asset.total_liabilities := 40;
     Asset.shares_outstanding := 10 |}.

Definition asset_negative_shares : Asset.Inputs :=
  {| Asset.total_assets := 100; Asset.total_liabilities := 40;
     Asset.shares_outstanding := -10 |}.

Definition asset_no_shares : Asset.Inputs :=
  {| Asset.total_assets := 100; Asset.total_liabilities := 40;
     Asset.shares_outstanding := 0 |}.

(** *** Binary64 inputs *)

(** Positive shares and a discount rate above the terminal growth rate;
    the growth rates are zero and the discount rate is -100, so that every
    power is a special case of [**]. *)
Definition b64_total_discount : B64.DCF.Inputs :=
  {| B64.DCF.opc := 100; B64.DCF.opc1 := 100; B64.DCF.opc2 := 100;
     B64.DCF.ope := 20; B64.DCF.ope1 := 20; B64.DCF.ope2 := 20;
     B64.DCF.gr := 0; B64.DCF.gr1 := 0;
     B64.DCF.tr := -200; B64.DCF.dr := -100;
     B64.DCF.dv := 50; B64.DCF.cb := 20; B64.DCF.os := 10 |}%float.

(** A discount rate of 5e-324, the smallest positive float, above a
    terminal growth rate of zero. *)
Definition b64_tiny_discount : B64.DCF.Inputs :=
  {| B64.DCF.opc := 100; B64.DCF.opc1 := 100; B64.DCF.opc2 := 100;
     B64.DCF.ope := 20; B64.DCF.ope1 := 20; B64.DCF.ope2 := 20;
     B64.DCF.gr := 0; B64.DCF.gr1 := 0;
     B64.DCF.tr := 0; B64.DCF.dr := 5e-324;
     B64.DCF.dv := 50; B64.DCF.cb := 20; B64.DCF.os := 10 |}%float.



(** Base 80, no growth, no discount, terminal growth rate -50. *)
Definition b64_plain : B64.DCF.Inputs :=
  {| B64.DCF.opc := 100; B64.DCF.opc1 := 100; B64.DCF.opc2 := 100;
     B64.DCF.ope := 20; B64.DCF.ope1 := 20; B64.DCF.ope2 := 20;
     B64.DCF.gr := 0; B64.DCF.gr1 := 0;
     B64.DCF.tr := -50; B64.DCF.dr := 0;
     B64.DCF.dv := 50; B64.DCF.cb := 20; B64.DCF.os := 10 |}%float.

(** A required return of 5e-324 above a growth rate of zero. *)
Definition b64_ddm_tiny_spread : B64.DDM.Inputs :=
  {| B64.DDM.D1 := 5; B64.DDM.g := 0; B64.DDM.r := 5e-324 |}%float.

(** A dividend of 5e-324 with a spread of 200. *)
Definition b64_ddm_tiny_dividend : B64.DDM.Inputs :=
  {| B64.DDM.D1 := 5e-324; B64.DDM.g := 0; B64.DDM.r := 200 |}%float.

(** The RIM scenario of the specification on floats. *)
Definition b64_rim_scenario : B64.RIM.Inputs :=
  {| B64.RIM.book_value := 50; B64.RIM.net_income := 8;
     B64.RIM.rf := 6.5; B64.RIM.beta := 1; B64.RIM.market_return := 12 |}%float.

(** A risk-free rate of 5e-324 with a beta of zero: the cost of equity is
    5e-324, not zero. *)
Definition b64_rim_tiny_cost : B64.RIM.Inputs :=
  {| B64.RIM.book_value := 50; B64.RIM.net_income := 8;
     B64.RIM.rf := 5e-324; B64.RIM.beta := 0; B64.RIM.market_return := 12 |}%float.

(** An outcome that is a result or one of the two arithmetic exceptions:
    no error message and no [IndexError]. *)
Definition arithmetic {A : Type} (c : outcome A) : Prop :=
  c = Raised ZeroDivisionError \/ c = Raised OverflowError
  \/ exists a, c = Shown a.

(** * Closed forms of the DCF locals *)

(** The mean of the three free cash flows (lines 74-75). *)
Definition base (x : DCF.Inputs) : Q :=
  sum [DCF.opc x - DCF.ope x; DCF.opc1 x - DCF.ope1 x; DCF.opc2 x - DCF.ope2 x]
  / len [DCF.opc x - DCF.ope x; DCF.opc1 x - DCF.ope1 x; DCF.opc2 x - DCF.ope2 x].

(** The value line 82 gives to index [i] of [FV]. *)
Definition FV_at (c grp grp1 : Q) (i : Z) : Q :=
  if (i <? 5)%Z then c * (1 + grp) ^ i
  else c * (1 + grp) ^ 5 * (1 + grp1) ^ (i - 5).

(** The value line 83 gives to index [i] of [PV]. *)
Definition PV_at (fv : list Q) (drp : Q) (i : Z) : Q :=
  nth (Z.to_nat i) fv 0 / (1 + drp) ^ (i + 1).

(** The run as a function of the validated inputs: every local variable in
    terms of the inputs and of the locals assigned before it. *)
Record computed (x : DCF.Inputs) (t : DCF.Locals) : Prop :=
  { computed_shares : 0 < DCF.os x;
    computed_rates : DCF.tr x < DCF.dr x;
    computed_factor : ~ DCF.dr x == -100;
    computed_cashflow : DCF.cashflow t = base x;
    computed_FV :
      DCF.FV t
      = map (FV_at (DCF.cashflow t) (DCF.gr x / 100) (DCF.gr1 x / 100))
            (range 10);
    computed_PV :
      DCF.PV t = map (PV_at (DCF.FV t) (DCF.dr x / 100)) (range 10);
    computed_terminalvalue :
      DCF.terminalvalue t
      = nth 9 (DCF.FV t) 0 * (1 + DCF.tr x / 100)
        / (DCF.dr x / 100 - DCF.tr x / 100);
    computed_pvtv :
      DCF.pvtv t = DCF.terminalvalue t / (1 + DCF.dr x / 100) ^ 10;
    computed_sumofpresentvalues :
      DCF.sumofpresentvalues t = sum (DCF.PV t) + DCF.pvtv t;
    computed_netdebt : DCF.netdebt t = DCF.dv x - DCF.cb x;
    computed_totalpresentvalue :
      DCF.totalpresentvalue t = DCF.sumofpresentvalues t - DCF.netdebt t;
    computed_shareprice :
      DCF.shareprice t = DCF.totalpresentvalue t / DCF.os x;
    computed_uppershareprice :
      DCF.uppershareprice t = DCF.shareprice t * 1.1;
    computed_lowershareprice :
      DCF.lowershareprice t = DCF.shareprice t * 0.9;
    computed_marginofsafetyprice :
      DCF.marginofsafetyprice t = DCF.lowershareprice t * 0.7 }.

(** * The DCF formulas in the words of the specification *)

(** The two-phase schedule for year [i] in 1..10: [i] periods of near-term
    growth up to year 5, then [i - 5] periods of long-term growth. *)
Definition spec_FV (base nearTerm longTerm : Q) (i : Z) : Q :=
  if (i <=? 5)%Z then base * (1 + nearTerm) ^ i
  else base * (1 + nearTerm) ^ 5 * (1 + longTerm) ^ (i - 5).

(** The sum of [f i] over the [n] indices from [lo] on. *)
Definition sigma (f : nat -> Q) (lo n : nat) : Q :=
  fold_right (fun i acc => f i + acc) 0 (seq lo n).

(** The share price as the specification words it, over the ten projected
    cash flows [fv] ([FV_i] is [nth (i - 1) fv 0]): each cash flow of year
    [i] discounted [i] periods, the growing perpetuity on the tenth one
    discounted ten periods, net debt taken off, per share.  Division is the
    total division of [Q]. *)
Definition spec_shareprice (fv : list Q) (x : DCF.Inputs) : Q :=
  let discountRate := DCF.dr x / 100 in
  let terminalRate := DCF.tr x / 100 in
  (sigma (fun i => nth (i - 1) fv 0 / (1 + discountRate) ^ Z.of_nat i) 1 10
   + (nth 9 fv 0 * (1 + terminalRate) / (discountRate - terminalRate))
     / (1 + discountRate) ^ 10
   - (DCF.dv x - DCF.cb x))
  / DCF.os x.

(** * Variations of the inputs *)






(** The scenario with both growth rates at zero. *)
Definition dcf_no_growth : DCF.Inputs :=
  {| DCF.opc := 100; DCF.opc1 := 100; DCF.opc2 := 100;
     DCF.ope := 20; DCF.ope1 := 20; DCF.ope2 := 20;
     DCF.gr := 0; DCF.gr1 := 0; DCF.tr := 3; DCF.dr := 10;
     DCF.dv := 50; DCF.cb := 20; DCF.os := 10 |}.



(** * Properties *)

(** ** Arithmetic helpers *)

Lemma truediv_defined (a b : Q) :
  ~ b == 0 -> truediv a b = Shown (a / b).
Proof.
  intros Hb. unfold truediv.
  destruct (Qeq_bool b 0) eqn:E; [|reflexivity].
  apply Qeq_bool_eq in E. contradiction.
Qed.

Lemma truediv_by_zero (a b : Q) :
  b == 0 -> truediv a b = Raised ZeroDivisionError.
Proof.
  intros Hb. unfold truediv.
  apply Qeq_bool_iff in Hb. rewrite Hb. reflexivity.
Qed.

Lemma truediv_Shown (a b v : Q) :
  truediv a b = Shown v -> ~ b == 0 /\ v = a / b.
Proof.
  unfold truediv. destruct (Qeq_bool b 0) eqn:E; [discriminate|].
  intros H. injection H as <-. split; [|reflexivity].
  intros Hb. apply Qeq_bool_iff in Hb. congruence.
Qed.

Lemma truediv_100 (a : Q) : truediv a 100 = Shown (a / 100).
Proof. reflexivity. Qed.

Lemma truediv_const (a b : Q) :
  Qeq_bool b 0 = false -> truediv a b = Shown (a / b).
Proof. intros E. unfold truediv. rewrite E. reflexivity. Qed.

Lemma pow_nonneg (x : Q) (n : Z) : (0 <= n)%Z -> pow x n = Shown (x ^ n).
Proof.
  intros Hn. unfold pow.
  replace (n <? 0)%Z with false by (symmetry; apply Z.ltb_ge; exact Hn).
  reflexivity.
Qed.

Lemma Qle_bool_false (a b : Q) : Qle_bool a b = false <-> b < a.
Proof.
  split.
  - intros H. apply Qnot_le_lt. intros Hle.
    apply Qle_bool_iff in Hle. congruence.
  - intros H. destruct (Qle_bool a b) eqn:E; [|reflexivity].
    apply Qle_bool_iff in E. lra.
Qed.

Lemma bind_Shown {A B : Type} (c : outcome A) (k : A -> outcome B) (b : B) :
  bind c k = Shown b -> exists a, c = Shown a /\ k a = Shown b.
Proof.
  destruct c as [a| |]; simpl; [|discriminate..].
  intros H. exists a. split; [reflexivity|exact H].
Qed.

Lemma Shown_inj {A : Type} (a b : A) : Shown a = Shown b -> a = b.
Proof. intros H. congruence. Qed.

Lemma rejected_no_number {A : Type} (c : outcome A) (k : ErrorKind) :
  fails_with c k -> produces_number c = false.
Proof. intros [e [-> _]]. reflexivity. Qed.

(** ** Lists and indices *)

Lemma range_In (n : nat) (i : Z) :
  In i (range n) <-> (0 <= i < Z.of_nat n)%Z.
Proof.
  unfold range. rewrite in_map_iff. split.
  - intros [k [<- Hk]]. apply in_seq in Hk. lia.
  - intros Hi. exists (Z.to_nat i). split; [lia|].
    apply in_seq. lia.
Qed.

Lemma getitem_in_range (l : list Q) (i : Z) :
  (0 <= i < Z.of_nat (List.length l))%Z ->
  getitem l i = Shown (nth (Z.to_nat i) l 0).
Proof.
  intros Hi. unfold getitem.
  assert (E0 : (i <? 0)%Z = false) by (apply Z.ltb_ge; lia).
  cbv zeta. rewrite !E0.
  destruct (nth_error l (Z.to_nat i)) as [v|] eqn:E.
  - rewrite (nth_error_nth _ _ _ E). reflexivity.
  - apply nth_error_None in E. lia.
Qed.

Lemma getitem_last (l : list Q) (n : nat) :
  List.length l = S n -> getitem l (-1) = Shown (nth n l 0).
Proof.
  intros Hlen. unfold getitem. rewrite Hlen.
  change (-1 <? 0)%Z with true. cbv zeta iota.
  replace (-1 + Z.of_nat (S n))%Z with (Z.of_nat n) by lia.
  destruct (Z.of_nat n <? 0)%Z eqn:E0; [apply Z.ltb_lt in E0; lia|].
  rewrite Nat2Z.id.
  destruct (nth_error l n) as [v|] eqn:E.
  - rewrite (nth_error_nth _ _ _ E). reflexivity.
  - apply nth_error_None in E. lia.
Qed.

Lemma mapM_Shown {A B : Type} (f : A -> outcome B) (g : A -> B) (l : list A) :
  (forall a, In a l -> f a = Shown (g a)) -> mapM f l = Shown (map g l).
Proof.
  induction l as [|a l IH]; intros Hf; [reflexivity|].
  cbn [mapM map]. rewrite (Hf a) by (left; reflexivity).
  cbn [bind]. rewrite IH; [reflexivity|].
  intros b Hb. apply Hf. right. exact Hb.
Qed.

(** ** Discounted Cash Flow: the two comprehensions *)

Lemma project_defined (c grp grp1 : Q) :
  DCF.project c grp grp1 = Shown (map (FV_at c grp grp1) (range 10)).
Proof.
  apply mapM_Shown. intros i Hi. apply range_In in Hi. unfold FV_at.
  destruct (i <? 5)%Z eqn:E.
  - rewrite pow_nonneg by lia. reflexivity.
  - apply Z.ltb_ge in E.
    rewrite !pow_nonneg by lia. reflexivity.
Qed.

Lemma discount_defined (fv : list Q) (drp : Q) :
  List.length fv = 10%nat ->
  ~ 1 + drp == 0 ->
  DCF.discount fv drp = Shown (map (PV_at fv drp) (range 10)).
Proof.
  intros Hlen Hd. apply mapM_Shown. intros i Hi. apply range_In in Hi.
  rewrite getitem_in_range by (rewrite Hlen; exact Hi).
  rewrite pow_nonneg by lia. cbn [bind].
  apply truediv_defined. apply Qpower_not_0. exact Hd.
Qed.

Lemma discount_total_loss (fv : list Q) (drp : Q) :
  List.length fv = 10%nat ->
  1 + drp == 0 ->
  DCF.discount fv drp = Raised ZeroDivisionError.
Proof.
  intros Hlen Hd. unfold DCF.discount. cbn [range seq map mapM].
  rewrite getitem_in_range by (rewrite Hlen; cbn; lia).
  rewrite pow_nonneg by (cbn; lia). cbn [bind].
  rewrite truediv_by_zero; [reflexivity|].
  rewrite Hd. reflexivity.
Qed.

(** ** Discounted Cash Flow: the base and the sum of present values *)


Lemma sum_PV_sigma (fv : list Q) (drp : Q) :
  sum (map (PV_at fv drp) (range 10))
  == sigma (fun i => nth (i - 1) fv 0 / (1 + drp) ^ Z.of_nat i) 1 10.
Proof.
  unfold sum, sigma, PV_at, range.
  cbn [map seq fold_left fold_right Z.of_nat Pos.of_succ_nat Pos.succ
       Z.to_nat Nat.sub Z.add Pos.add].
  change (Pos.to_nat 1) with 1%nat. change (Pos.to_nat 2) with 2%nat.
  change (Pos.to_nat 3) with 3%nat. change (Pos.to_nat 4) with 4%nat.
  change (Pos.to_nat 5) with 5%nat. change (Pos.to_nat 6) with 6%nat.
  change (Pos.to_nat 7) with 7%nat. change (Pos.to_nat 8) with 8%nat.
  change (Pos.to_nat 9) with 9%nat.
  ring.
Qed.

(** *** What a completed run has computed *)

Lemma rate_gap_nonzero (x : DCF.Inputs) :
  DCF.tr x < DCF.dr x -> ~ DCF.dr x / 100 - DCF.tr x / 100 == 0.
Proof.
  intros Hgap H.
  assert (E : DCF.dr x == DCF.tr x).
  { setoid_replace (DCF.dr x)
      with ((DCF.dr x / 100 - DCF.tr x / 100) * 100 + DCF.tr x) by field.
    rewrite H. ring. }
  lra.
Qed.

Lemma discount_factor_zero (x : DCF.Inputs) :
  1 + DCF.dr x / 100 == 0 <-> DCF.dr x == -100.
Proof.
  split; intros H.
  - setoid_replace (DCF.dr x) with ((1 + DCF.dr x / 100) * 100 - 100) by field.
    rewrite H. reflexivity.
  - rewrite H. reflexivity.
Qed.

Lemma discount_Shown (fv pv : list Q) (drp : Q) :
  List.length fv = 10%nat ->
  DCF.discount fv drp = Shown pv ->
  ~ 1 + drp == 0 /\ pv = map (PV_at fv drp) (range 10).
Proof.
  intros Hlen H.
  destruct (Qeq_dec (1 + drp) 0) as [Hz|Hnz].
  - rewrite (discount_total_loss fv drp Hlen Hz) in H. discriminate.
  - split; [exact Hnz|].
    rewrite (discount_defined fv drp Hlen Hnz) in H.
    apply Shown_inj in H as <-. reflexivity.
Qed.

Lemma run_Shown (x : DCF.Inputs) (t : DCF.Locals) :
  DCF.run x = Shown t -> computed x t.
Proof.
  unfold DCF.run. intros H.
  destruct (Qle_bool (DCF.os x) 0) eqn:Eos; [discriminate|].
  destruct (Qle_bool (DCF.dr x) (DCF.tr x)) eqn:Edr; [discriminate|].
  apply Qle_bool_false in Eos, Edr.
  cbv zeta in H.
  apply bind_Shown in H as [cashflow [Ecashflow H]].
  apply bind_Shown in H as [grp [Egrp H]].
  apply bind_Shown in H as [grp1 [Egrp1 H]].
  apply bind_Shown in H as [trp [Etrp H]].
  apply bind_Shown in H as [drp [Edrp H]].
  apply bind_Shown in H as [FV [EFV H]].
  apply bind_Shown in H as [PV [EPV H]].
  apply bind_Shown in H as [last [Elast H]].
  apply bind_Shown in H as [terminalvalue [Eterminalvalue H]].
  apply bind_Shown in H as [d10 [Ed10 H]].
  apply bind_Shown in H as [pvtv [Epvtv H]].
  apply bind_Shown in H as [shareprice [Eshareprice H]].
  apply Shown_inj in H as <-.
  apply truediv_Shown in Ecashflow as [_ ->].
  apply truediv_Shown in Egrp as [_ ->].
  apply truediv_Shown in Egrp1 as [_ ->].
  apply truediv_Shown in Etrp as [_ ->].
  apply truediv_Shown in Edrp as [_ ->].
  rewrite project_defined in EFV. apply Shown_inj in EFV as <-.
  apply discount_Shown in EPV as [Hfactor ->];
    [|rewrite length_map; reflexivity].
  rewrite (getitem_last _ 9) in Elast by (rewrite length_map; reflexivity).
  apply Shown_inj in Elast as <-.
  apply truediv_Shown in Eterminalvalue as [_ ->].
  rewrite pow_nonneg in Ed10 by lia. apply Shown_inj in Ed10 as <-.
  apply truediv_Shown in Epvtv as [_ ->].
  apply truediv_Shown in Eshareprice as [_ ->].
  constructor; cbn [DCF.cashflow DCF.FV DCF.PV DCF.terminalvalue DCF.pvtv
                    DCF.sumofpresentvalues DCF.netdebt DCF.totalpresentvalue
                    DCF.shareprice DCF.uppershareprice DCF.lowershareprice
                    DCF.marginofsafetyprice];
    try reflexivity; try assumption.
  intros Hdr. apply Hfactor. apply discount_factor_zero. exact Hdr.
Qed.

(** *** A validated run completes unless the discount rate is -100 *)

Section Validated.

Variable x : DCF.Inputs.
Hypothesis shares_positive : 0 < DCF.os x.
Hypothesis discount_above_terminal : DCF.tr x < DCF.dr x.

Lemma run_validated_completes :
  ~ DCF.dr x == -100 -> exists t, DCF.run x = Shown t.
Proof.
  intros Hdr. unfold DCF.run.
  rewrite (proj2 (Qle_bool_false _ _) shares_positive).
  rewrite (proj2 (Qle_bool_false _ _) discount_above_terminal).
  cbv zeta.
  rewrite (truediv_const _ (len _)) by reflexivity.
  rewrite !truediv_100. cbn [bind].
  rewrite project_defined. cbn [bind].
  rewrite discount_defined;
    [|rewrite length_map; reflexivity
     |rewrite discount_factor_zero; exact Hdr].
  cbn [bind].
  rewrite (getitem_last _ 9) by (rewrite length_map; reflexivity).
  cbn [bind].
  rewrite truediv_defined by (apply rate_gap_nonzero; assumption).
  cbn [bind].
  rewrite pow_nonneg by lia. cbn [bind].
  rewrite truediv_defined
    by (apply Qpower_not_0; rewrite discount_factor_zero; exact Hdr).
  cbn [bind].
  rewrite truediv_defined by lra.
  cbn [bind]. eexists. reflexivity.
Qed.

Lemma run_validated_total_discount :
  DCF.dr x == -100 -> DCF.run x = Raised ZeroDivisionError.
Proof.
  intros Hdr. unfold DCF.run.
  rewrite (proj2 (Qle_bool_false _ _) shares_positive).
  rewrite (proj2 (Qle_bool_false _ _) discount_above_terminal).
  cbv zeta.
  rewrite (truediv_const _ (len _)) by reflexivity.
  rewrite !truediv_100. cbn [bind].
  rewrite project_defined. cbn [bind].
  rewrite discount_total_loss;
    [reflexivity|rewrite length_map; reflexivity
    |rewrite discount_factor_zero; exact Hdr].
Qed.

End Validated.

(** ** Dividend Discount Model *)

Example ddm_paying_value :
  exists v, DDM.intrinsic_value ddm_paying = Shown v /\ v == 100.
Proof. eexists. split; [reflexivity|]. reflexivity. Qed.

Lemma ddm_never_raises (x : DDM.Inputs) (e : PyExn) :
  DDM.intrinsic_value x <> Raised e.
Proof.
  unfold DDM.intrinsic_value.
  destruct (Qle_bool (DDM.r x) (DDM.g x)) eqn:E; [discriminate|].
  apply Qle_bool_false in E.
  rewrite truediv_100. cbn [bind].
  rewrite truediv_defined; [discriminate|].
  intros H.
  assert (Hd : 0 < (DDM.r x - DDM.g x) / 100)
    by (apply Qlt_shift_div_l; lra).
  lra.
Qed.

(** ** Residual Income Model *)

Lemma rim_run_defined (x : RIM.Inputs) :
  ~ RIM.capm x == 0 ->
  RIM.run x =
  Shown {| RIM.cost_of_equity := RIM.capm x;
           RIM.intrinsic_value :=
             RIM.book_value x
             + (RIM.net_income x - RIM.book_value x * (RIM.capm x / 100))
               / (RIM.capm x / 100) |}.
Proof.
  intros Hc. unfold RIM.run. rewrite truediv_100. simpl.
  rewrite truediv_defined; [reflexivity|].
  intros H. apply Hc.
  setoid_replace (RIM.capm x) with (RIM.capm x / 100 * 100) by (field).
  rewrite H. reflexivity.
Qed.

Lemma rim_run_zero_cost (x : RIM.Inputs) :
  RIM.capm x == 0 -> RIM.run x = Raised ZeroDivisionError.
Proof.
  intros Hc. unfold RIM.run. rewrite truediv_100. simpl.
  rewrite truediv_by_zero; [reflexivity|].
  rewrite Hc. reflexivity.
Qed.

Lemma rim_value_closed_form (x : RIM.Inputs) :
  ~ RIM.capm x == 0 ->
  RIM.book_value x
  + (RIM.net_income x - RIM.book_value x * (RIM.capm x / 100))
    / (RIM.capm x / 100)
  == RIM.net_income x / (RIM.capm x / 100).
Proof. intros Hc. field. exact Hc. Qed.

(** C10.  With a nonzero cost of equity the value the RIM block shows is
    [net_income / (cost / 100)]: the book value cancels, and the same
    inputs with any other book value [b] give the same value. *)
Theorem C10_rim_value_ignores_book_value (x : RIM.Inputs) (b : Q) :
  ~ RIM.capm x == 0 ->
  exists t t',
    RIM.run x = Shown t
    /\ RIM.run (with_book_value b x) = Shown t'
    /\ RIM.intrinsic_value t == RIM.net_income x / (RIM.capm x / 100)
    /\ RIM.intrinsic_value t' == RIM.intrinsic_value t.
Proof.
  intros Hc.
  assert (Hc' : ~ RIM.capm (with_book_value b x) == 0) by exact Hc.
  do 2 eexists.
  split; [apply rim_run_defined; exact Hc|].
  split; [apply rim_run_defined; exact Hc'|].
  cbn [RIM.intrinsic_value].
  split.
  - apply rim_value_closed_form. exact Hc.
  - rewrite (rim_value_closed_form x Hc).
    rewrite (rim_value_closed_form (with_book_value b x) Hc').
    reflexivity.
Qed.

Lemma C10_rim_value_ignores_book_value_witness :
  exists t t',
    RIM.run rim_scenario = Shown t
    /\ RIM.run (with_book_value 0 rim_scenario) = Shown t'
    /\ RIM.intrinsic_value t == 8 / (RIM.capm rim_scenario / 100)
    /\ RIM.intrinsic_value t' == RIM.intrinsic_value t.
Proof.
  apply (C10_rim_value_ignores_book_value rim_scenario 0). discriminate.
Defined.

(** ** Relative Valuation *)

(** C9.  The relative-valuation block never rejects and never raises: it
    shows [industry_pe * eps]; with [industry_pe = 1] the number shown is
    the EPS. *)
Theorem C9_relative_product_and_identity :
  (forall x : Relative.Inputs,
      Relative.relative_value x
      = Shown (Relative.industry_pe x * Relative.eps x))
  /\ (forall X : Q,
        exists v,
          Relative.relative_value
            {| Relative.industry_pe := 1; Relative.eps := X |} = Shown v
          /\ v == X).
Proof.
  split.
  - intros x. reflexivity.
  - intros X. eexists. split; [reflexivity|]. cbn. ring.
Qed.

(** ** Asset-Based Valuation *)

Example asset_example_value :
  exists v, Asset.nav asset_example = Shown v /\ v == 6.
Proof. eexists. split; reflexivity. Qed.

Lemma nav_nonzero_shares (x : Asset.Inputs) :
  ~ Asset.shares_outstanding x == 0 ->
  Asset.nav x
  = Shown ((Asset.total_assets x - Asset.total_liabilities x)
           / Asset.shares_outstanding x).
Proof. intros Hs. apply truediv_defined. exact Hs. Qed.

Lemma nav_positive_shares (x : Asset.Inputs) :
  0 < Asset.shares_outstanding x ->
  Asset.nav x
  = Shown ((Asset.total_assets x - Asset.total_liabilities x)
           / Asset.shares_outstanding x).
Proof. intros Hs. apply nav_nonzero_shares. lra. Qed.

Lemma nav_zero_shares (x : Asset.Inputs) :
  Asset.shares_outstanding x == 0 -> Asset.nav x = Raised ZeroDivisionError.
Proof. intros Hs. apply truediv_by_zero. exact Hs. Qed.

Lemma nav_never_rejects (x : Asset.Inputs) (k : ErrorKind) :
  ~ fails_with (Asset.nav x) k.
Proof.
  intros [e [H _]]. unfold Asset.nav, truediv in H.
  destruct (Qeq_bool _ _); discriminate.
Qed.

(** C3.  The asset block has no check of its shares input: with 100 of
    assets, 40 of liabilities and -10 shares it shows the number -6, and
    with 0 shares the division raises [ZeroDivisionError]; in neither case
    is an error of kind [InvalidShares] shown. *)
Theorem C3_nav_has_no_share_check :
  (exists v,
      Asset.nav asset_negative_shares = Shown v
      /\ v == -6
      /\ produces_number (Asset.nav asset_negative_shares) = true
      /\ ~ fails_with (Asset.nav asset_negative_shares) InvalidShares)
  /\ Asset.nav asset_no_shares = Raised ZeroDivisionError
  /\ ~ fails_with (Asset.nav asset_no_shares) InvalidShares.
Proof.
  split; [|split].
  - eexists. split; [reflexivity|].
    split; [reflexivity|]. split; [reflexivity|].
    apply nav_never_rejects.
  - reflexivity.
  - apply nav_never_rejects.
Qed.

(** ** Discounted Cash Flow: validation *)

Lemma run_no_shares (x : DCF.Inputs) :
  DCF.os x <= 0 -> DCF.run x = Rejected SharesNotPositive.
Proof.
  intros Hos. unfold DCF.run.
  apply Qle_bool_iff in Hos. rewrite Hos. reflexivity.
Qed.

Lemma run_rates_crossed (x : DCF.Inputs) :
  0 < DCF.os x -> DCF.dr x <= DCF.tr x ->
  DCF.run x = Rejected DiscountNotAboveTerminal.
Proof.
  intros Hos Hdr. unfold DCF.run.
  rewrite (proj2 (Qle_bool_false _ _) Hos).
  apply Qle_bool_iff in Hdr. rewrite Hdr. reflexivity.
Qed.

(** C5, as stated, at an input with no shares and equal rates: the discount
    rate is not above the terminal growth rate, and the error shown is the
    one about the shares, not one of kind [InvalidRateRelation]. *)
Lemma C5_shares_checked_first :
  DCF.dr dcf_both_invalid <= DCF.tr dcf_both_invalid
  /\ DCF.run dcf_both_invalid = Rejected SharesNotPositive
  /\ ~ fails_with (DCF.run dcf_both_invalid) InvalidRateRelation.
Proof.
  split; [discriminate|]. split; [reflexivity|].
  intros [e [H K]]. vm_compute in H.
  apply eq_sym in H. injection H as ->. discriminate K.
Qed.

(** C5, amended.  With outstanding shares at or below zero the DCF block
    shows the error of kind [InvalidShares]; with positive shares and a
    discount rate at or below the terminal growth rate it shows the error
    of kind [InvalidRateRelation]; in both cases no number is shown. *)
Theorem C5_dcf_validation (x : DCF.Inputs) :
  (DCF.os x <= 0 ->
     fails_with (DCF.run x) InvalidShares
     /\ produces_number (DCF.run x) = false)
  /\ (0 < DCF.os x -> DCF.dr x <= DCF.tr x ->
        fails_with (DCF.run x) InvalidRateRelation
        /\ produces_number (DCF.run x) = false).
Proof.
  split.
  - intros Hos. rewrite (run_no_shares x Hos).
    split; [|reflexivity].
    exists SharesNotPositive. split; reflexivity.
  - intros Hos Hdr. rewrite (run_rates_crossed x Hos Hdr).
    split; [|reflexivity].
    exists DiscountNotAboveTerminal. split; reflexivity.
Qed.

Lemma C5_dcf_validation_witness :
  (fails_with (DCF.run dcf_both_invalid) InvalidShares
   /\ produces_number (DCF.run dcf_both_invalid) = false)
  /\ (fails_with (DCF.run dcf_flat_rates) InvalidRateRelation
      /\ produces_number (DCF.run dcf_flat_rates) = false).
Proof.
  split.
  - apply (proj1 (C5_dcf_validation dcf_both_invalid)). discriminate.
  - apply (proj2 (C5_dcf_validation dcf_flat_rates)).
    + reflexivity.
    + discriminate.
Defined.

(** ** Discounted Cash Flow: the displayed prices of the scenario *)

Example dcf_scenario_bounds_ordered :
  exists t,
    DCF.run dcf_scenario = Shown t
    /\ 0 < DCF.shareprice t
    /\ format_2f (DCF.shareprice t) = 15541%Z
    /\ format_2f (DCF.uppershareprice t) = 17095%Z
    /\ format_2f (DCF.lowershareprice t) = 13987%Z
    /\ format_2f (DCF.marginofsafetyprice t) = 9791%Z.
Proof.
  eexists. split; [vm_compute; reflexivity|].
  split; [reflexivity|]. repeat split; vm_compute; reflexivity.
Qed.

(** ** Discounted Cash Flow: the projected cash flows *)

Lemma nth_map_range {A : Type} (f : Z -> A) (n : nat) (i : Z) (d : A) :
  (0 <= i < Z.of_nat n)%Z -> nth (Z.to_nat i) (map f (range n)) d = f i.
Proof.
  intros Hi. unfold range. rewrite map_map.
  rewrite (nth_indep _ d (f (Z.of_nat 0)))
    by (rewrite length_map, length_seq; lia).
  rewrite (map_nth (fun k => f (Z.of_nat k)) (seq 0 n) 0%nat).
  rewrite seq_nth by lia. f_equal. lia.
Qed.

(** The cash flow the code projects for year [year] in 1..10 (index
    [year - 1] of [FV]): [year - 1] periods of near-term growth up to year
    5, five periods in year 6, then [year - 6] periods of long-term growth. *)
Lemma projection_by_year (x : DCF.Inputs) (t : DCF.Locals) (year : Z) :
  DCF.run x = Shown t ->
  (1 <= year <= 10)%Z ->
  nth (Z.to_nat (year - 1)) (DCF.FV t) 0
  = if (year <=? 5)%Z
    then DCF.cashflow t * (1 + DCF.gr x / 100) ^ (year - 1)
    else DCF.cashflow t * (1 + DCF.gr x / 100) ^ 5
         * (1 + DCF.gr1 x / 100) ^ (year - 6).
Proof.
  intros H Hy. apply run_Shown in H.
  rewrite (computed_FV x t H).
  rewrite nth_map_range by (cbn; lia).
  unfold FV_at.
  destruct (year <=? 5)%Z eqn:E.
  - apply Z.leb_le in E.
    replace (year - 1 <? 5)%Z with true by (symmetry; apply Z.ltb_lt; lia).
    reflexivity.
  - apply Z.leb_gt in E.
    replace (year - 1 <? 5)%Z with false by (symmetry; apply Z.ltb_ge; lia).
    replace (year - 1 - 5)%Z with (year - 6)%Z by lia.
    reflexivity.
Qed.

(** The code's cash flow of year [year] is the schedule of the
    specification taken one year earlier. *)
Lemma projection_one_year_behind (x : DCF.Inputs) (t : DCF.Locals) (year : Z) :
  DCF.run x = Shown t ->
  (1 <= year <= 10)%Z ->
  nth (Z.to_nat (year - 1)) (DCF.FV t) 0
  == spec_FV (DCF.cashflow t) (DCF.gr x / 100) (DCF.gr1 x / 100) (year - 1).
Proof.
  intros H Hy. rewrite (projection_by_year x t year H Hy).
  unfold spec_FV.
  destruct (year <=? 5)%Z eqn:E.
  - apply Z.leb_le in E.
    replace (year - 1 <=? 5)%Z with true by (symmetry; apply Z.leb_le; lia).
    reflexivity.
  - apply Z.leb_gt in E.
    destruct (Z.eq_dec year 6) as [->|Hne].
    + cbn [Z.sub Z.add Z.opp Z.pos_sub Z.leb Z.compare Pos.compare
           Pos.compare_cont Z.succ_double Z.pred_double Z.double
           Pos.pred_double]. 
      change ((1 + DCF.gr1 x / 100) ^ 0) with 1. ring.
    + replace (year - 1 <=? 5)%Z with false
        by (symmetry; apply Z.leb_gt; lia).
      replace (year - 1 - 5)%Z with (year - 6)%Z by lia.
      reflexivity.
Qed.

(** C1.  On the end-to-end scenario of the specification (base 80, near-term
    rate 10%, long-term rate 5%) the run completes and the first projected
    cash flow is 80, the base itself, where the schedule of the
    specification has 88; in each of the ten years the projected cash flow
    differs from that schedule. *)
Theorem C1_projection_lags_the_schedule :
  exists t,
    DCF.run dcf_scenario = Shown t
    /\ DCF.cashflow t == 80
    /\ nth 0 (DCF.FV t) 0 == 80
    /\ spec_FV (DCF.cashflow t) (10 / 100) (5 / 100) 1 == 88
    /\ forall year : Z,
         (1 <= year <= 10)%Z ->
         ~ nth (Z.to_nat (year - 1)) (DCF.FV t) 0
           == spec_FV (DCF.cashflow t)
                (DCF.gr dcf_scenario / 100) (DCF.gr1 dcf_scenario / 100) year.
Proof.
  eexists. split; [vm_compute; reflexivity|].
  split; [reflexivity|]. split; [reflexivity|]. split; [reflexivity|].
  intros year Hy.
  assert (Hcases : (year = 1 \/ year = 2 \/ year = 3 \/ year = 4
                    \/ year = 5 \/ year = 6 \/ year = 7 \/ year = 8
                    \/ year = 9 \/ year = 10)%Z) by lia.
  repeat (destruct Hcases as [->|Hcases]); try subst year;
    vm_compute; discriminate.
Qed.

(** ** Discounted Cash Flow: the share price *)

(** In exact arithmetic: for a validated input whose discount rate is not
    -100 the run completes with ten projected cash flows, and the share
    price is the sum of the i-th projected cash flow discounted i periods,
    i in 1..10, plus the growing perpetuity on the tenth discounted ten
    periods, minus net debt, per outstanding share. *)
Lemma shareprice_formula_exact (x : DCF.Inputs) :
  0 < DCF.os x ->
  DCF.tr x < DCF.dr x ->
  ~ DCF.dr x == -100 ->
  exists t,
    DCF.run x = Shown t
    /\ List.length (DCF.FV t) = 10%nat
    /\ DCF.shareprice t == spec_shareprice (DCF.FV t) x.
Proof.
  intros Hos Hrates Hdr.
  destruct (run_validated_completes x Hos Hrates Hdr) as [t Ht].
  exists t. split; [exact Ht|].
  apply run_Shown in Ht.
  destruct Ht as [_ _ _ _ HFV HPV Htv Hpvtv Hsum Hnet Htotal Hprice _ _ _].
  split.
  - rewrite HFV, length_map. reflexivity.
  - rewrite Hprice, Htotal, Hsum, Hnet, Hpvtv, Htv, HPV.
    unfold spec_shareprice. cbv zeta.
    rewrite sum_PV_sigma. reflexivity.
Qed.

(** ** The page: divisions without a guard *)

(** C4.  Three presses that end in an uncaught [ZeroDivisionError]: the RIM
    block with a zero cost of equity, the asset block with zero shares, and
    the DCF block with a validated input whose discount rate is -100. *)
Theorem C4_unguarded_divisions_raise :
  RIM.capm rim_zero_cost == 0
  /\ press (SelectRIM rim_zero_cost) = Raised ZeroDivisionError
  /\ Asset.shares_outstanding asset_no_shares == 0
  /\ press (SelectAsset asset_no_shares) = Raised ZeroDivisionError
  /\ 0 < DCF.os dcf_total_discount
  /\ DCF.tr dcf_total_discount < DCF.dr dcf_total_discount
  /\ press (SelectDCF dcf_total_discount) = Raised ZeroDivisionError.
Proof. repeat split. Qed.

(** * Further properties of the blocks *)

(** ** Discounted Cash Flow: the share price as a function of the inputs *)













(** ** Discounted Cash Flow: the two lists *)




(** X8.  With both growth rates at zero every projected cash flow of a
    completed run is the mean free cash flow. *)
Theorem X8_dcf_zero_growth (x : DCF.Inputs) (t : DCF.Locals) (i : Z) :
  DCF.run x = Shown t ->
  DCF.gr x == 0 -> DCF.gr1 x == 0 ->
  (0 <= i < 10)%Z ->
  nth (Z.to_nat i) (DCF.FV t) 0 == base x.
Proof.
  intros H Hg Hg1 Hi. apply run_Shown in H.
  rewrite (computed_FV x t H), (computed_cashflow x t H).
  rewrite nth_map_range by (cbn; lia).
  assert (E : 1 + DCF.gr x / 100 == 1) by (rewrite Hg; reflexivity).
  assert (E1 : 1 + DCF.gr1 x / 100 == 1) by (rewrite Hg1; reflexivity).
  unfold FV_at. destruct (i <? 5)%Z.
  - rewrite E, Qpower_1. ring.
  - rewrite E, E1, !Qpower_1. ring.
Qed.

Lemma X8_dcf_zero_growth_witness :
  exists t,
    DCF.run dcf_no_growth = Shown t
    /\ nth (Z.to_nat 7) (DCF.FV t) 0 == base dcf_no_growth.
Proof.
  eexists. split; [reflexivity|].
  apply (X8_dcf_zero_growth dcf_no_growth _ 7);
    [reflexivity|reflexivity|reflexivity|lia].
Defined.




(** ** The two-decimal display *)

(** X16.  The number of hundredths displayed is within half a hundredth
    of the value. *)
Theorem X16_format_2f_error (x : Q) :
  Qabs (x * 100 - inject_Z (format_2f x)) <= 1 # 2.
Proof.
  unfold format_2f. cbv zeta.
  set (y := x * 100).
  pose proof (Qfloor_le y) as Hlo.
  pose proof (Qlt_floor y) as Hhi.
  rewrite inject_Z_plus in Hhi. change (inject_Z 1) with 1 in Hhi.
  apply Qabs_Qle_condition.
  destruct (Qcompare (y - inject_Z (Qfloor y)) (1 # 2)) eqn:E.
  - apply Qeq_alt in E.
    destruct (Z.even (Qfloor y)).
    + split; lra.
    + rewrite inject_Z_plus. change (inject_Z 1) with 1. split; lra.
  - apply Qlt_alt in E. split; lra.
  - apply Qgt_alt in E.
    rewrite inject_Z_plus. change (inject_Z 1) with 1. split; lra.
Qed.

(** X17.  A value that is a whole number of hundredths is displayed as
    that number of hundredths. *)
Theorem X17_format_2f_exact (n : Z) :
  format_2f (inject_Z n / 100) = n.
Proof.
  unfold format_2f. cbv zeta.
  assert (E : inject_Z n / 100 * 100 == inject_Z n) by field.
  rewrite !(Qfloor_comp _ _ E), Qfloor_Z.
  assert (E0 : inject_Z n / 100 * 100 - inject_Z n == 0) by (rewrite E; ring).
  rewrite (Qcompare_comp _ _ E0 (1 # 2) (1 # 2) (Qeq_refl _)).
  reflexivity.
Qed.

(** ** The selector and its blocks *)

(** X18.  Each of the five options of the selector reaches a block of its
    own, in the order of the options, and no other label reaches a block. *)
Theorem X18_every_option_has_its_block :
  map branch options
  = [Some BlockDCF; Some BlockDDM; Some BlockRIM; Some BlockRelative;
     Some BlockAsset]
  /\ forall (model : string) (b : Block),
       branch model = Some b -> In model options.
Proof.
  split; [reflexivity|].
  intros model b. unfold branch, options.
  repeat match goal with
         | |- context [String.eqb model ?s] =>
             destruct (String.eqb_spec model s) as [->|_];
             [intros _; simpl; tauto|]
         end.
  discriminate.
Qed.

Lemma X18_every_option_has_its_block_witness :
  In "Asset-Based Valuation"%string options.
Proof.
  apply (proj2 X18_every_option_has_its_block
           "Asset-Based Valuation"%string BlockAsset).
  reflexivity.
Defined.


(** * Properties of the binary64 blocks *)

(** ** Outcomes of the arithmetic *)

Lemma arithmetic_Shown {A : Type} (a : A) : arithmetic (Shown a).
Proof. right. right. exists a. reflexivity. Qed.

Lemma arithmetic_bind {A B : Type} (c : outcome A) (k : A -> outcome B) :
  arithmetic c ->
  (forall a, c = Shown a -> arithmetic (k a)) ->
  arithmetic (bind c k).
Proof.
  intros [->|[->|[a ->]]] Hk.
  - left. reflexivity.
  - right. left. reflexivity.
  - cbn [bind]. apply Hk. reflexivity.
Qed.

Lemma arithmetic_mapM {A B : Type} (f : A -> outcome B) (l : list A) :
  (forall a, In a l -> arithmetic (f a)) -> arithmetic (mapM f l).
Proof.
  induction l as [|a l IH]; intros Hf; [apply arithmetic_Shown|].
  cbn [mapM]. apply arithmetic_bind; [apply Hf; left; reflexivity|].
  intros b _. apply arithmetic_bind.
  - apply IH. intros a' Ha'. apply Hf. right. exact Ha'.
  - intros bs _. apply arithmetic_Shown.
Qed.

Lemma mapM_length {A B : Type} (f : A -> outcome B) (l : list A) (r : list B) :
  mapM f l = Shown r -> List.length r = List.length l.
Proof.
  revert r. induction l as [|a l IH]; intros r H.
  - apply Shown_inj in H as <-. reflexivity.
  - cbn [mapM] in H.
    apply bind_Shown in H as [b [_ H]].
    apply bind_Shown in H as [bs [Hbs H]].
    apply Shown_inj in H as <-.
    cbn [List.length]. rewrite (IH bs Hbs). reflexivity.
Qed.

Lemma b64_truediv_arithmetic (a b : float) : arithmetic (B64.truediv a b).
Proof.
  unfold B64.truediv. destruct (b =? 0)%float.
  - left. reflexivity.
  - apply arithmetic_Shown.
Qed.

Lemma b64_pow_arithmetic (libm_pow : float -> Z -> float) (x : float) (n : Z) :
  arithmetic (B64.DCF.pow libm_pow x n).
Proof.
  unfold B64.DCF.pow.
  repeat match goal with
         | |- arithmetic (if ?b then _ else _) => destruct b
         | |- arithmetic (let _ := _ in _) => cbv zeta
         | |- arithmetic (Shown _) => apply arithmetic_Shown
         | |- arithmetic (Raised ZeroDivisionError) => left; reflexivity
         | |- arithmetic (Raised OverflowError) => right; left; reflexivity
         end.
Qed.

Lemma b64_getitem_in_range (l : list float) (i : Z) :
  (0 <= i < Z.of_nat (List.length l))%Z ->
  exists v, B64.getitem l i = Shown v.
Proof.
  intros Hi. unfold B64.getitem.
  assert (E0 : (i <? 0)%Z = false) by (apply Z.ltb_ge; lia).
  cbv zeta. rewrite !E0.
  destruct (nth_error l (Z.to_nat i)) as [v|] eqn:E.
  - exists v. reflexivity.
  - apply nth_error_None in E. lia.
Qed.

Lemma b64_getitem_last (l : list float) :
  l <> [] -> exists v, B64.getitem l (-1) = Shown v.
Proof.
  intros Hl. unfold B64.getitem.
  change (-1 <? 0)%Z with true. cbv zeta iota.
  assert (Hlen : (0 < List.length l)%nat)
    by (destruct l; [congruence|cbn; lia]).
  destruct (-1 + Z.of_nat (List.length l) <? 0)%Z eqn:E0;
    [apply Z.ltb_lt in E0; lia|].
  destruct (nth_error l (Z.to_nat (-1 + Z.of_nat (List.length l))))
    as [v|] eqn:E.
  - exists v. reflexivity.
  - apply nth_error_None in E. lia.
Qed.

Section Libm.

Variable libm_pow : float -> Z -> float.

Lemma b64_project_arithmetic (c grp grp1 : float) :
  arithmetic (B64.DCF.project libm_pow c grp grp1).
Proof.
  apply arithmetic_mapM. intros i _.
  destruct (i <? 5)%Z.
  - apply arithmetic_bind; [apply b64_pow_arithmetic|].
    intros p _. apply arithmetic_Shown.
  - apply arithmetic_bind; [apply b64_pow_arithmetic|].
    intros p5 _. apply arithmetic_bind; [apply b64_pow_arithmetic|].
    intros p _. apply arithmetic_Shown.
Qed.

Lemma b64_discount_arithmetic (fv : list float) (drp : float) :
  List.length fv = 10%nat ->
  arithmetic (B64.DCF.discount libm_pow fv drp).
Proof.
  intros Hlen. apply arithmetic_mapM. intros i Hi. apply range_In in Hi.
  destruct (b64_getitem_in_range fv i) as [v Hv]; [rewrite Hlen; exact Hi|].
  rewrite Hv. cbn [bind].
  apply arithmetic_bind; [apply b64_pow_arithmetic|].
  intros d _. apply b64_truediv_arithmetic.
Qed.

Lemma b64_run_validated_arithmetic (x : B64.DCF.Inputs) :
  (B64.DCF.os x <=? 0)%float = false ->
  (B64.DCF.dr x <=? B64.DCF.tr x)%float = false ->
  arithmetic (B64.DCF.run libm_pow x).
Proof.
  intros Hos Hr. unfold B64.DCF.run. rewrite Hos, Hr. cbv zeta.
  apply arithmetic_bind; [apply b64_truediv_arithmetic|]. intros cashflow _.
  apply arithmetic_bind; [apply b64_truediv_arithmetic|]. intros grp _.
  apply arithmetic_bind; [apply b64_truediv_arithmetic|]. intros grp1 _.
  apply arithmetic_bind; [apply b64_truediv_arithmetic|]. intros trp _.
  apply arithmetic_bind; [apply b64_truediv_arithmetic|]. intros drp _.
  apply arithmetic_bind; [apply b64_project_arithmetic|]. intros FV HFV.
  assert (Hlen : List.length FV = 10%nat)
    by (apply mapM_length in HFV; exact HFV).
  apply arithmetic_bind; [apply b64_discount_arithmetic; exact Hlen|].
  intros PV _.
  destruct (b64_getitem_last FV) as [last Hlast];
    [destruct FV; [discriminate Hlen|discriminate]|].
  rewrite Hlast. cbn [bind].
  apply arithmetic_bind; [apply b64_truediv_arithmetic|]. intros tv _.
  apply arithmetic_bind; [apply b64_pow_arithmetic|]. intros d10 _.
  apply arithmetic_bind; [apply b64_truediv_arithmetic|]. intros pvtv _.
  apply arithmetic_bind; [apply b64_truediv_arithmetic|]. intros price _.
  apply arithmetic_Shown.
Qed.

(** What a completed binary64 run has computed in its last four lines, and
    the lengths of its two lists. *)
Lemma b64_run_Shown (x : B64.DCF.Inputs) (t : B64.DCF.Locals) :
  B64.DCF.run libm_pow x = Shown t ->
  (B64.DCF.os x <=? 0)%float = false
  /\ (B64.DCF.dr x <=? B64.DCF.tr x)%float = false
  /\ List.length (B64.DCF.FV t) = 10%nat
  /\ List.length (B64.DCF.PV t) = 10%nat
  /\ B64.DCF.uppershareprice t = (B64.DCF.shareprice t * 1.1)%float
  /\ B64.DCF.lowershareprice t = (B64.DCF.shareprice t * 0.9)%float
  /\ B64.DCF.marginofsafetyprice t
     = (B64.DCF.lowershareprice t * 0.7)%float.
Proof.
  unfold B64.DCF.run. intros H.
  destruct (B64.DCF.os x <=? 0)%float; [discriminate|].
  destruct (B64.DCF.dr x <=? B64.DCF.tr x)%float; [discriminate|].
  cbv zeta in H.
  apply bind_Shown in H as [cashflow [_ H]].
  apply bind_Shown in H as [grp [_ H]].
  apply bind_Shown in H as [grp1 [_ H]].
  apply bind_Shown in H as [trp [_ H]].
  apply bind_Shown in H as [drp [_ H]].
  apply bind_Shown in H as [FV [HFV H]].
  apply bind_Shown in H as [PV [HPV H]].
  apply bind_Shown in H as [last [_ H]].
  apply bind_Shown in H as [terminalvalue [_ H]].
  apply bind_Shown in H as [d10 [_ H]].
  apply bind_Shown in H as [pvtv [_ H]].
  apply bind_Shown in H as [shareprice [_ H]].
  apply Shown_inj in H as <-.
  apply mapM_length in HFV, HPV.
  cbn [B64.DCF.FV B64.DCF.PV B64.DCF.shareprice B64.DCF.uppershareprice
       B64.DCF.lowershareprice B64.DCF.marginofsafetyprice].
  repeat split; assumption || reflexivity.
Qed.

End Libm.

(** ** Discounted Cash Flow on binary64 *)

(** X1.  On binary64 floats the DCF block shows the shares message when
    [os <= 0] holds, else the rates message when [dr <= tr] holds; past
    both tests it never shows a message and never raises [IndexError]: it
    ends in a [ZeroDivisionError], in an [OverflowError], or it completes,
    and then both lists have ten entries.  This holds for every behaviour
    of the C library's [pow]. *)
Theorem X1_dcf_outcomes_binary64
    (libm_pow : float -> Z -> float) (x : B64.DCF.Inputs) :
  ((B64.DCF.os x <=? 0)%float = true
   /\ B64.DCF.run libm_pow x = Rejected SharesNotPositive)
  \/ ((B64.DCF.os x <=? 0)%float = false
      /\ (B64.DCF.dr x <=? B64.DCF.tr x)%float = true
      /\ B64.DCF.run libm_pow x = Rejected DiscountNotAboveTerminal)
  \/ ((B64.DCF.os x <=? 0)%float = false
      /\ (B64.DCF.dr x <=? B64.DCF.tr x)%float = false
      /\ (B64.DCF.run libm_pow x = Raised ZeroDivisionError
          \/ B64.DCF.run libm_pow x = Raised OverflowError
          \/ exists t,
               B64.DCF.run libm_pow x = Shown t
               /\ List.length (B64.DCF.FV t) = 10%nat
               /\ List.length (B64.DCF.PV t) = 10%nat)).
Proof.
  destruct (B64.DCF.os x <=? 0)%float eqn:Hos.
  { left. split; [reflexivity|]. unfold B64.DCF.run. rewrite Hos. reflexivity. }
  right.
  destruct (B64.DCF.dr x <=? B64.DCF.tr x)%float eqn:Hr.
  { left. split; [reflexivity|]. split; [reflexivity|].
    unfold B64.DCF.run. rewrite Hos, Hr. reflexivity. }
  right. split; [reflexivity|]. split; [reflexivity|].
  destruct (b64_run_validated_arithmetic libm_pow x Hos Hr) as [H|[H|[t H]]].
  - left. exact H.
  - right. left. exact H.
  - right. right. exists t. split; [exact H|].
    destruct (b64_run_Shown libm_pow x t H) as [_ [_ [HFV [HPV _]]]].
    split; assumption.
Qed.

(** C2.  Two validated inputs on which the DCF block raises instead of
    computing a share price, for every behaviour of the C library's [pow]:
    with a discount rate of -100 the division of line 83 has the divisor
    [(1 + drp) ** 1 = 0.0]; with a discount rate of 5e-324 above a terminal
    growth rate of 0 the test [dr <= tr] fails, [drp = dr / 100] rounds to
    0.0 and the division of line 85 has the divisor [drp - trp = 0.0]. *)
Theorem C2_validated_runs_raise (libm_pow : float -> Z -> float) :
  ((B64.DCF.os b64_total_discount <=? 0)%float = false
   /\ (B64.DCF.dr b64_total_discount <=? B64.DCF.tr b64_total_discount)%float
      = false
   /\ B64.DCF.run libm_pow b64_total_discount = Raised ZeroDivisionError)
  /\ ((B64.DCF.os b64_tiny_discount <=? 0)%float = false
      /\ (B64.DCF.dr b64_tiny_discount <=? B64.DCF.tr b64_tiny_discount)%float
         = false
      /\ (B64.DCF.dr b64_tiny_discount / 100
          - B64.DCF.tr b64_tiny_discount / 100 =? 0)%float = true
      /\ B64.DCF.run libm_pow b64_tiny_discount = Raised ZeroDivisionError).
Proof. repeat split; vm_compute; reflexivity. Qed.




(** The plain binary64 run: base 80, price 85, and the three bounds as the
    float products give them. *)
Example b64_plain_prices (libm_pow : float -> Z -> float) :
  exists t,
    B64.DCF.run libm_pow b64_plain = Shown t
    /\ B64.DCF.cashflow t = 80%float
    /\ B64.DCF.shareprice t = 85%float
    /\ B64.DCF.uppershareprice t = 93.500000000000014%float
    /\ B64.DCF.lowershareprice t = 76.5%float
    /\ B64.DCF.marginofsafetyprice t = 53.549999999999997%float.
Proof. eexists. split; [lazy; reflexivity|]. repeat split; reflexivity. Qed.

(** ** Dividend Discount Model on binary64 *)

(** C7.  A DDM input that passes the test of line 113 and raises: with a
    required return of 5e-324 above a growth rate of 0, [(r - g) / 100]
    rounds to 0.0 and line 116 divides by it.  And a positive dividend of
    5e-324 with a spread of 200 is shown as 0.0, which is not positive. *)
Theorem C7_ddm_guard_passes_and_division_raises :
  ((B64.DDM.r b64_ddm_tiny_spread <=? B64.DDM.g b64_ddm_tiny_spread)%float
   = false
   /\ (B64.DDM.g b64_ddm_tiny_spread <? B64.DDM.r b64_ddm_tiny_spread)%float
      = true
   /\ B64.DDM.intrinsic_value b64_ddm_tiny_spread = Raised ZeroDivisionError)
  /\ ((B64.DDM.g b64_ddm_tiny_dividend <? B64.DDM.r b64_ddm_tiny_dividend)%float
      = true
      /\ (0 <? B64.DDM.D1 b64_ddm_tiny_dividend)%float = true
      /\ B64.DDM.intrinsic_value b64_ddm_tiny_dividend = Shown 0%float
      /\ (0 <? 0)%float = false).
Proof. repeat split; reflexivity. Qed.

(** ** Residual Income Model on binary64 *)

(** C8.  A RIM input with a nonzero cost of equity that raises: with a
    risk-free rate of 5e-324 and a beta of 0 the cost of equity is 5e-324,
    [cost_of_equity / 100] rounds to 0.0 and line 136 divides by it.  On
    the scenario of the specification the block shows a cost of equity of
    12 and the value 66.666666666666671. *)
Theorem C8_rim_nonzero_cost_raises :
  (B64.RIM.capm b64_rim_tiny_cost = 5e-324%float
   /\ (B64.RIM.capm b64_rim_tiny_cost =? 0)%float = false
   /\ B64.RIM.run b64_rim_tiny_cost = Raised ZeroDivisionError)
  /\ B64.RIM.run b64_rim_scenario
     = Shown {| B64.RIM.cost_of_equity := 12%float;
                B64.RIM.intrinsic_value := 66.666666666666671%float |}.
Proof. repeat split; reflexivity. Qed.
